(** * whelm: a terminal HTTP client (main.go)

    A shallow embedding of the interaction state machine of [main.go]
    ([model.Update]), of the header parser ([parseHeaders]), of the request
    executor ([sendRequest]) and of the persistence store
    ([loadSavedRequests]), followed by the properties established for them.

    Go strings are byte sequences and are embedded as [string]; Go maps
    [map[string]string] are embedded as [gmap string string]; Go [int]s that
    serve as indices are embedded as [Z], and an index expression out of
    range is a run-time panic, written [Panic] (and [None]) below. *)

From Stdlib Require Import ZArith Ascii String.
From stdpp Require Import base option list strings gmap fin_maps.

Local Open Scope Z_scope.

(** ** The parts of Go's [strings] package used by main.go *)

Module strings.

(** [strings.Index(s, sep)] for a one-byte separator: the part before the
    first occurrence of [sep] and the part after it. *)
Fixpoint Cut (s : string) (sep : ascii) : option (string * string) :=
  match s with
  | EmptyString => None
  | String c r =>
      if Ascii.eqb c sep then Some (EmptyString, r)
      else match Cut r sep with
           | Some (a, b) => Some (String c a, b)
           | None => None
           end
  end.

(** [strings.SplitN(s, sep, n)] for [n >= 0] and a one-byte separator: at
    most [n] substrings, the last one being the unsplit remainder. *)
Fixpoint SplitN (s : string) (sep : ascii) (n : nat) : list string :=
  match n with
  | O => []
  | S O => [s]
  | S n' =>
      match Cut s sep with
      | None => [s]
      | Some (a, b) => a :: SplitN b sep n'
      end
  end.

(** [strings.Split(s, sep)] is [genSplit(s, sep, 0, -1)]: the bound on the
    number of substrings is [Count(s, sep) + 1], which never exceeds
    [len(s) + 1]. *)
Definition Split (s : string) (sep : ascii) : list string :=
  SplitN s sep (S (String.length s)).

(** [strings.HasSuffix]. *)
Definition HasSuffix (s suffix : string) : bool :=
  String.prefix (String.rev suffix) (String.rev s).

(** White space as [unicode.IsSpace] sees it, on the UTF-8 encoding.
    One-byte runes: '\t' '\n' '\v' '\f' '\r' ' '. *)
Definition asciiSpace (b : N) : bool :=
  match b with
  | 9 | 10 | 11 | 12 | 13 | 32 => true
  | _ => false
  end%N.

(** Two-byte runes: U+0085 (C2 85) and U+00A0 (C2 A0). *)
Definition space2 (b0 b1 : N) : bool :=
  (b0 =? 194)%N && ((b1 =? 133)%N || (b1 =? 160)%N).

(** Three-byte runes: U+1680 (E1 9A 80), U+2000..U+200A (E2 80 80..8A),
    U+2028, U+2029 (E2 80 A8, A9), U+202F (E2 80 AF), U+205F (E2 81 9F),
    U+3000 (E3 80 80). *)
Definition space3 (b0 b1 b2 : N) : bool :=
  ((b0 =? 225) && (b1 =? 154) && (b2 =? 128))%N
  || ((b0 =? 226) && (b1 =? 128)
      && (((128 <=? b2) && (b2 <=? 138)) || (b2 =? 168) || (b2 =? 169)
          || (b2 =? 175)))%N
  || ((b0 =? 226) && (b1 =? 129) && (b2 =? 159))%N
  || ((b0 =? 227) && (b1 =? 128) && (b2 =? 128))%N.

(** Width in bytes of the white-space rune [s] starts with; [0] when [s]
    does not start with one. *)
Definition leadingSpace (s : string) : nat :=
  match s with
  | EmptyString => 0
  | String c0 r0 =>
      let b0 := N_of_ascii c0 in
      if asciiSpace b0 then 1
      else match r0 with
           | EmptyString => 0
           | String c1 r1 =>
               let b1 := N_of_ascii c1 in
               if space2 b0 b1 then 2
               else match r1 with
                    | EmptyString => 0
                    | String c2 _ =>
                        if space3 b0 b1 (N_of_ascii c2) then 3 else 0
                    end
           end
  end%nat.

(** The same for the rune a string ends with, on the reversed string
    (as [utf8.DecodeLastRuneInString] finds it). *)
Definition trailingSpace (rs : string) : nat :=
  match rs with
  | EmptyString => 0
  | String c0 r0 =>
      let b0 := N_of_ascii c0 in
      if asciiSpace b0 then 1
      else match r0 with
           | EmptyString => 0
           | String c1 r1 =>
               let b1 := N_of_ascii c1 in
               if space2 b1 b0 then 2
               else match r1 with
                    | EmptyString => 0
                    | String c2 _ =>
                        if space3 (N_of_ascii c2) b1 b0 then 3 else 0
                    end
           end
  end%nat.

Fixpoint dropBytes (n : nat) (s : string) : string :=
  match n, s with
  | O, _ => s
  | S n', String _ r => dropBytes n' r
  | S _, EmptyString => EmptyString
  end.

(** Strip white-space runes from the front, as long as [width] finds one;
    [fuel] bounds the number of runes stripped. *)
Fixpoint trimWith (width : string -> nat) (fuel : nat) (s : string) : string :=
  match fuel with
  | O => s
  | S fuel' =>
      match width s with
      | O => s
      | w => trimWith width fuel' (dropBytes w s)
      end
  end.

Definition TrimLeftSpace (s : string) : string :=
  trimWith leadingSpace (String.length s) s.

Definition TrimRightSpace (s : string) : string :=
  String.rev (trimWith trailingSpace (String.length s) (String.rev s)).

(** [strings.TrimSpace]: leading and trailing white space removed. *)
Definition TrimSpace (s : string) : string :=
  TrimRightSpace (TrimLeftSpace s).

End strings.

(** ** Header parser (main.go, [parseHeaders]) *)

Definition newline : ascii := Ascii.ascii_of_nat 10.
Definition colon : ascii := Ascii.ascii_of_nat 58.

(** One iteration of the loop over [lines]: the body of the [for]. *)
Definition parseHeaders_line (headers : gmap string string) (line : string)
  : gmap string string :=
  let line := strings.TrimSpace line in
  if String.eqb line "" then headers (* continue *)
  else
    let parts := strings.SplitN line colon 2 in
    match parts with
    | [p0; p1] =>
        let key := strings.TrimSpace p0 in
        let value := strings.TrimSpace p1 in
        <[key := value]> headers
    | _ => headers
    end.

Definition parseHeaders (input : string) : gmap string string :=
  let headers : gmap string string := ∅ in
  let lines := strings.Split input newline in
  fold_left parseHeaders_line lines headers.

(** The same function written after the specification's algorithm: split on
    line boundaries, trim each line, skip blank lines, split each remaining
    line on the first colon only (lines without a colon are discarded), trim
    key and value, and insert the entries in order. *)
Definition header_entry (line : string) : option (string * string) :=
  match strings.Cut line colon with
  | Some (k, v) => Some (strings.TrimSpace k, strings.TrimSpace v)
  | None => None
  end.

Definition header_entries (input : string) : list (string * string) :=
  let lines := strings.Split input newline in
  let trimmed := map strings.TrimSpace lines in
  let nonblank := List.filter (fun l => negb (String.eqb l "")) trimmed in
  omap header_entry nonblank.

Definition insertEntry (headers : gmap string string) (kv : string * string)
  : gmap string string := <[kv.1 := kv.2]> headers.

Definition parseHeaders_spec (input : string) : gmap string string :=
  fold_left insertEntry (header_entries input) ∅.

(** Header text with a blank line, a line without a colon and one entry. *)
Definition ignoredLinesInput : string :=
  "  " +:+ String newline ("NoColonHere" +:+ String newline "A: B  ").

(** ** Data model (main.go, lines 23-105) *)

Inductive UIState :=
  | stateMain
  | stateEditRequest
  | stateViewResponse
  | stateSaveRequest
  | stateLoadRequest.

#[global] Instance UIState_eq_dec : EqDecision UIState.
Proof. solve_decision. Defined.

Definition httpMethods : list string :=
  ["GET"; "POST"; "PUT"; "DELETE"; "PATCH"; "HEAD"; "OPTIONS"].

Record HTTPRequest := mkHTTPRequest {
  Name : string;
  Method : string;
  URL : string;
  Headers : gmap string string;
  Body : string
}.

Record HTTPResponse := mkHTTPResponse {
  resp_StatusCode : Z;
  resp_Status : string;
  resp_Headers : gmap string string;
  resp_Body : string;
  resp_Error : string
}.

Definition with_Name (v : string) (r : HTTPRequest) : HTTPRequest :=
  mkHTTPRequest v (Method r) (URL r) (Headers r) (Body r).
Definition with_Method (v : string) (r : HTTPRequest) : HTTPRequest :=
  mkHTTPRequest (Name r) v (URL r) (Headers r) (Body r).
Definition with_URL (v : string) (r : HTTPRequest) : HTTPRequest :=
  mkHTTPRequest (Name r) (Method r) v (Headers r) (Body r).
Definition with_Headers (v : gmap string string) (r : HTTPRequest) : HTTPRequest :=
  mkHTTPRequest (Name r) (Method r) (URL r) v (Body r).
Definition with_Body (v : string) (r : HTTPRequest) : HTTPRequest :=
  mkHTTPRequest (Name r) (Method r) (URL r) (Headers r) v.

(** [slice[i]] on a Go slice: [None] is the index-out-of-range panic. *)
Definition slice_index {A} (l : list A) (i : Z) : option A :=
  if (0 <=? i) && (i <? Z.of_nat (length l)) then l !! Z.to_nat i else None.

(** main.go, [indexOf]: position of [val] in [slice], [0] when absent. *)
Fixpoint indexOf_from (i : Z) (val : string) (slice : list string) : option Z :=
  match slice with
  | [] => None
  | item :: rest =>
      if String.eqb item val then Some i else indexOf_from (i + 1) val rest
  end.

Definition indexOf (val : string) (slice : list string) : Z :=
  match indexOf_from 0 val slice with
  | Some i => i
  | None => 0 (* Default to first item if not found *)
  end.

(** *** Key events, as Bubble Tea delivers them

    [tea.KeyMsg] is a key type, the runes typed (for [KeyRunes]) and the Alt
    modifier. [Key_String] follows [tea.Key.String]: an [alt+] prefix when
    Alt is held, then the runes or the name of the key type. *)

Inductive KeyType :=
  | KeyRunes | KeyTab | KeyCtrlN | KeyEnter | KeyEsc | KeyCtrlC | KeyCtrlS
  | KeyUp | KeyDown | KeyBackspace | KeySpace.

#[global] Instance KeyType_eq_dec : EqDecision KeyType.
Proof. solve_decision. Defined.

Record Key := mkKey {
  key_Type : KeyType;
  key_Runes : string;
  key_Alt : bool
}.

Definition keyNames (t : KeyType) : string :=
  match t with
  | KeyRunes => ""
  | KeyTab => "tab"
  | KeyCtrlN => "ctrl+n"
  | KeyEnter => "enter"
  | KeyEsc => "esc"
  | KeyCtrlC => "ctrl+c"
  | KeyCtrlS => "ctrl+s"
  | KeyUp => "up"
  | KeyDown => "down"
  | KeyBackspace => "backspace"
  | KeySpace => " "
  end.

Definition Key_String (k : Key) : string :=
  (if key_Alt k then "alt+" else "") +:+
  (match key_Type k with
   | KeyRunes => key_Runes k
   | t => keyNames t
   end).

(** *** Commands and messages

    A [tea.Cmd] is a deferred computation that yields a message; the
    commands main.go creates are kept as syntax, so that what has been
    dispatched can be inspected. *)

#[warnings="-register-all"] Inductive Cmd :=
  | nilCmd
  | tea_Quit
  | textinput_Blink
  | textarea_Blink
  | spinner_Tick
  | sendRequest (req : HTTPRequest)
  | saveRequest (req : HTTPRequest)
  | libraryCmd (tag : nat)
  | tea_Batch (cmds : list Cmd).

Inductive Msg :=
  | KeyMsg (k : Key)
  | WindowSizeMsg (Width Height : Z)
  | responseMsg (r : HTTPResponse)
  | savedRequestsMsg (l : list HTTPRequest)
  | errMsg (e : string)
  | spinner_TickMsg
  | libraryMsg (tag : nat).

(** The requests a command sends when it is run. *)
Fixpoint dispatched (c : Cmd) : list HTTPRequest :=
  match c with
  | sendRequest req => [req]
  | tea_Batch cmds => flat_map dispatched cmds
  | _ => []
  end.

(** *** The Bubbles widgets, reduced to the state main.go reads and writes *)

Module textinput.
Record Model := mk { value : string; focus : bool }.
Definition Focused (m : Model) : bool := focus m.
Definition Focus (m : Model) : Model := mk (value m) true.
Definition Blur (m : Model) : Model := mk (value m) false.
Definition Value (m : Model) : string := value m.
Definition SetValue (s : string) (m : Model) : Model := mk s (focus m).
Definition Reset (m : Model) : Model := mk "" (focus m).
Definition New : Model := mk "" false.
End textinput.

Module textarea.
Record Model := mk { value : string; focus : bool; width : Z }.
Definition Focused (m : Model) : bool := focus m.
Definition Focus (m : Model) : Model := mk (value m) true (width m).
Definition Blur (m : Model) : Model := mk (value m) false (width m).
Definition Value (m : Model) : string := value m.
Definition SetValue (s : string) (m : Model) : Model := mk s (focus m) (width m).
Definition SetWidth (w : Z) (m : Model) : Model := mk (value m) (focus m) w.
Definition New : Model := mk "" false 0.
End textarea.

Record item := mkItem { title : string; desc : string }.

Module blist.
Record Model := mk { items : list item; index : Z; width : Z; height : Z }.
Definition Index (m : Model) : Z := index m.
Definition Select (i : Z) (m : Model) : Model := mk (items m) i (width m) (height m).
Definition SetItems (l : list item) (m : Model) : Model :=
  mk l (index m) (width m) (height m).
Definition SetSize (w h : Z) (m : Model) : Model := mk (items m) (index m) w h.
Definition New (l : list item) (w h : Z) : Model := mk l 0 w h.
End blist.

Module viewport.
Record Model := mk { content : string; Width : Z; Height : Z }.
Definition SetContent (s : string) (m : Model) : Model := mk s (Width m) (Height m).
Definition SetWidth (w : Z) (m : Model) : Model := mk (content m) w (Height m).
Definition SetHeight (h : Z) (m : Model) : Model := mk (content m) (Width m) h.
Definition New (w h : Z) : Model := mk "" w h.
End viewport.

Module spinner.
Record Model := mk { frame : Z }.
Definition New : Model := mk 0.
End spinner.

(** The widgets' own [Update] methods belong to the Bubbles library; the
    state machine is parameterised by them; a command they return is a
    command of the library, known by a tag. [responseContent] is the text
    assembled at main.go lines 323-354 for the response viewer (it depends
    on lipgloss rendering and on the iteration order of Go maps). *)
Record Bubbles := mkBubbles {
  textinput_Update : Msg -> textinput.Model -> textinput.Model * option nat;
  textarea_Update : Msg -> textarea.Model -> textarea.Model * option nat;
  list_Update : Msg -> blist.Model -> blist.Model * option nat;
  viewport_Update : Msg -> viewport.Model -> viewport.Model * option nat;
  spinner_Update : Msg -> spinner.Model -> spinner.Model * option nat;
  responseContent : HTTPRequest -> HTTPResponse -> string
}.

(** The command a widget hands back: [nil] or a command of the library. *)
Definition fromLibrary (cmd : option nat) : Cmd :=
  match cmd with
  | None => nilCmd
  | Some tag => libraryCmd tag
  end.

(** *** The application state ([type model struct]) *)

Record model := mkModel {
  state : UIState;
  width : Z;
  height : Z;
  currentRequest : HTTPRequest;
  response : HTTPResponse;
  methodList : blist.Model;
  urlInput : textinput.Model;
  bodyInput : textarea.Model;
  headerInput : textarea.Model;
  nameInput : textinput.Model;
  responseView : viewport.Model;
  spinner : spinner.Model;
  loading : bool;
  savedRequests : list HTTPRequest;
  requestList : blist.Model;
  err : option string
}.

(** Field assignments [m.f = v]. *)
Definition set_state (v : UIState) (m : model) : model :=
  mkModel v (width m) (height m) (currentRequest m) (response m)
    (methodList m) (urlInput m) (bodyInput m) (headerInput m) (nameInput m)
    (responseView m) (spinner m) (loading m) (savedRequests m)
    (requestList m) (err m).
Definition set_width (v : Z) (m : model) : model :=
  mkModel (state m) v (height m) (currentRequest m) (response m)
    (methodList m) (urlInput m) (bodyInput m) (headerInput m) (nameInput m)
    (responseView m) (spinner m) (loading m) (savedRequests m)
    (requestList m) (err m).
Definition set_height (v : Z) (m : model) : model :=
  mkModel (state m) (width m) v (currentRequest m) (response m)
    (methodList m) (urlInput m) (bodyInput m) (headerInput m) (nameInput m)
    (responseView m) (spinner m) (loading m) (savedRequests m)
    (requestList m) (err m).
Definition set_currentRequest (v : HTTPRequest) (m : model) : model :=
  mkModel (state m) (width m) (height m) v (response m) (methodList m)
    (urlInput m) (bodyInput m) (headerInput m) (nameInput m) (responseView m)
    (spinner m) (loading m) (savedRequests m) (requestList m) (err m).
Definition set_response (v : HTTPResponse) (m : model) : model :=
  mkModel (state m) (width m) (height m) (currentRequest m) v (methodList m)
    (urlInput m) (bodyInput m) (headerInput m) (nameInput m) (responseView m)
    (spinner m) (loading m) (savedRequests m) (requestList m) (err m).
Definition set_methodList (v : blist.Model) (m : model) : model :=
  mkModel (state m) (width m) (height m) (currentRequest m) (response m) v
    (urlInput m) (bodyInput m) (headerInput m) (nameInput m) (responseView m)
    (spinner m) (loading m) (savedRequests m) (requestList m) (err m).
Definition set_urlInput (v : textinput.Model) (m : model) : model :=
  mkModel (state m) (width m) (height m) (currentRequest m) (response m)
    (methodList m) v (bodyInput m) (headerInput m) (nameInput m)
    (responseView m) (spinner m) (loading m) (savedRequests m)
    (requestList m) (err m).
Definition set_bodyInput (v : textarea.Model) (m : model) : model :=
  mkModel (state m) (width m) (height m) (currentRequest m) (response m)
    (methodList m) (urlInput m) v (headerInput m) (nameInput m)
    (responseView m) (spinner m) (loading m) (savedRequests m)
    (requestList m) (err m).
Definition set_headerInput (v : textarea.Model) (m : model) : model :=
  mkModel (state m) (width m) (height m) (currentRequest m) (response m)
    (methodList m) (urlInput m) (bodyInput m) v (nameInput m)
    (responseView m) (spinner m) (loading m) (savedRequests m)
    (requestList m) (err m).
Definition set_nameInput (v : textinput.Model) (m : model) : model :=
  mkModel (state m) (width m) (height m) (currentRequest m) (response m)
    (methodList m) (urlInput m) (bodyInput m) (headerInput m) v
    (responseView m) (spinner m) (loading m) (savedRequests m)
    (requestList m) (err m).
Definition set_responseView (v : viewport.Model) (m : model) : model :=
  mkModel (state m) (width m) (height m) (currentRequest m) (response m)
    (methodList m) (urlInput m) (bodyInput m) (headerInput m) (nameInput m) v
    (spinner m) (loading m) (savedRequests m) (requestList m) (err m).
Definition set_spinner (v : spinner.Model) (m : model) : model :=
  mkModel (state m) (width m) (height m) (currentRequest m) (response m)
    (methodList m) (urlInput m) (bodyInput m) (headerInput m) (nameInput m)
    (responseView m) v (loading m) (savedRequests m) (requestList m) (err m).
Definition set_loading (v : bool) (m : model) : model :=
  mkModel (state m) (width m) (height m) (currentRequest m) (response m)
    (methodList m) (urlInput m) (bodyInput m) (headerInput m) (nameInput m)
    (responseView m) (spinner m) v (savedRequests m) (requestList m) (err m).
Definition set_savedRequests (v : list HTTPRequest) (m : model) : model :=
  mkModel (state m) (width m) (height m) (currentRequest m) (response m)
    (methodList m) (urlInput m) (bodyInput m) (headerInput m) (nameInput m)
    (responseView m) (spinner m) (loading m) v (requestList m) (err m).
Definition set_requestList (v : blist.Model) (m : model) : model :=
  mkModel (state m) (width m) (height m) (currentRequest m) (response m)
    (methodList m) (urlInput m) (bodyInput m) (headerInput m) (nameInput m)
    (responseView m) (spinner m) (loading m) (savedRequests m) v (err m).
Definition set_err (v : option string) (m : model) : model :=
  mkModel (state m) (width m) (height m) (currentRequest m) (response m)
    (methodList m) (urlInput m) (bodyInput m) (headerInput m) (nameInput m)
    (responseView m) (spinner m) (loading m) (savedRequests m)
    (requestList m) v.

(** main.go, [initialModel]. *)
Definition initialModel : model :=
  {| state := stateMain;
     width := 0;
     height := 0;
     currentRequest :=
       {| Name := ""; Method := "GET"; URL := ""; Headers := ∅; Body := "" |};
     response := mkHTTPResponse 0 "" ∅ "" "";
     methodList := blist.New (map (fun method => mkItem method "") httpMethods) 0 0;
     urlInput := textinput.Focus textinput.New;
     bodyInput := textarea.New;
     headerInput := textarea.New;
     nameInput := textinput.Focus textinput.New;
     responseView := viewport.SetContent "" (viewport.New 80 20);
     spinner := spinner.New;
     loading := false;
     savedRequests := [];
     requestList := blist.New [] 0 0;
     err := None |}.

(** ** The state machine (main.go, [model.Update]) *)

(** How far a pass through [Update] got: it returned, it is still running
    towards the widget updates at the end of the function, or it panicked. *)
Inductive Flow :=
  | Return (m : model) (cmd : Cmd)
  | Continue (m : model)
  | Panic.

(** The navigation keys (lines 192 and 392). *)
Definition isNavKey (msg : Key) : bool :=
  String.eqb (Key_String msg) "ctrl+n"
  || bool_decide (key_Type msg = KeyCtrlN)
  || String.eqb (Key_String msg) "tab"
  || bool_decide (key_Type msg = KeyTab).

(** Lines 194-214: field navigation, handled before anything else. *)
Definition navigate (m : model) : Flow :=
  if textinput.Focused (urlInput m) then
    (* Navigate from URL to Method List *)
    let m := set_urlInput (textinput.Blur (urlInput m)) m in
    let m := set_methodList
               (blist.Select (indexOf (Method (currentRequest m)) httpMethods)
                  (methodList m)) m in
    Return m nilCmd
  else if negb (textinput.Focused (urlInput m))
          && negb (textarea.Focused (headerInput m))
          && negb (textarea.Focused (bodyInput m)) then
    (* Method list is "focused" *)
    match slice_index httpMethods (blist.Index (methodList m)) with
    | None => Panic
    | Some method =>
        let m := set_currentRequest (with_Method method (currentRequest m)) m in
        let m := set_headerInput (textarea.Focus (headerInput m)) m in
        Return m textarea_Blink
    end
  else if textarea.Focused (headerInput m) then
    (* Navigate from Headers to Body *)
    let m := set_headerInput (textarea.Blur (headerInput m)) m in
    let m := set_bodyInput (textarea.Focus (bodyInput m)) m in
    Return m textarea_Blink
  else if textarea.Focused (bodyInput m) then
    (* Navigate from Body back to URL *)
    let m := set_bodyInput (textarea.Blur (bodyInput m)) m in
    let m := set_urlInput (textinput.Focus (urlInput m)) m in
    Return m textinput_Blink
  else Continue m.

Definition is_one_of (s : string) (cases : list string) : bool :=
  existsb (String.eqb s) cases.

(** Lines 217-302: [switch m.state], then [switch msg.String()]. *)
Definition handleKey (msg : Key) (m : model) : Flow :=
  let key := Key_String msg in
  match state m with
  | stateMain =>
      if is_one_of key ["q"; "ctrl+c"; "esc"] then Return m tea_Quit
      else if is_one_of key ["e"; "n"] then
        let m := set_state stateEditRequest m in
        let m := set_urlInput (textinput.Focus (urlInput m)) m in
        Return m nilCmd
      else if String.eqb key "l" then
        Return (set_state stateLoadRequest m) nilCmd
      else if String.eqb key "enter" then
        if negb (String.eqb (URL (currentRequest m)) "") then
          let m := set_loading true m in
          Return m (tea_Batch [spinner_Tick; sendRequest (currentRequest m)])
        else Continue m
      else Continue m
  | stateEditRequest =>
      if String.eqb key "esc" then Return (set_state stateMain m) nilCmd
      else if String.eqb key "enter" then
        (* Enter key when method list is active (nothing else is focused) *)
        if negb (textinput.Focused (urlInput m))
           && negb (textarea.Focused (headerInput m))
           && negb (textarea.Focused (bodyInput m)) then
          match slice_index httpMethods (blist.Index (methodList m)) with
          | None => Panic
          | Some method =>
              let m := set_currentRequest (with_Method method (currentRequest m)) m in
              let m := set_headerInput (textarea.Focus (headerInput m)) m in
              Return m nilCmd
          end
        else Continue m
      else if String.eqb key "s" then
        if key_Alt msg then
          let m := set_state stateSaveRequest m in
          let m := set_nameInput (textinput.Focus (nameInput m)) m in
          Return m nilCmd
        else Continue m
      else if String.eqb key "ctrl+s" then
        let m := set_state stateMain m in
        let m := set_loading true m in
        Return m (tea_Batch [spinner_Tick; sendRequest (currentRequest m)])
      else Continue m
  | stateViewResponse =>
      if is_one_of key ["esc"; "q"] then Return (set_state stateMain m) nilCmd
      else if String.eqb key "e" then Return (set_state stateEditRequest m) nilCmd
      else Continue m
  | stateSaveRequest =>
      if String.eqb key "esc" then Return (set_state stateEditRequest m) nilCmd
      else if String.eqb key "enter" then
        if negb (String.eqb (textinput.Value (nameInput m)) "") then
          let m := set_currentRequest
                     (with_Name (textinput.Value (nameInput m)) (currentRequest m)) m in
          let m := set_state stateEditRequest m in
          let m := set_nameInput (textinput.Reset (nameInput m)) m in
          Return m (saveRequest (currentRequest m))
        else Continue m
      else Continue m
  | stateLoadRequest =>
      if String.eqb key "esc" then Return (set_state stateMain m) nilCmd
      else if String.eqb key "enter" then
        if (0 <? Z.of_nat (length (savedRequests m)))
           && (0 <=? blist.Index (requestList m)) then
          match slice_index (savedRequests m) (blist.Index (requestList m)) with
          | None => Panic
          | Some req =>
              let m := set_currentRequest req m in
              let m := set_state stateMain m in
              Return m nilCmd
          end
        else Continue m
      else Continue m
  end.

Section Update.

Variable lib : Bubbles.

(** Lines 189-384: the [switch] on the type of the message. *)
Definition handleMsg (msg : Msg) (m : model) : Flow :=
  match msg with
  | KeyMsg k =>
      (* Handle tab navigation specially to ensure it works correctly *)
      let nav :=
        if bool_decide (state m = stateEditRequest) && isNavKey k
        then navigate m else Continue m in
      match nav with
      | Continue m => handleKey k m
      | done => done
      end
  | WindowSizeMsg Width Height =>
      let m := set_width Width m in
      let m := set_height Height m in
      let m := set_methodList (blist.SetSize 30 10 (methodList m)) m in
      let m := set_requestList (blist.SetSize Width (Height - 4) (requestList m)) m in
      let m := set_responseView (viewport.SetWidth Width (responseView m)) m in
      let m := set_responseView (viewport.SetHeight (Height - 4) (responseView m)) m in
      let m := set_bodyInput (textarea.SetWidth (Width - 4) (bodyInput m)) m in
      let m := set_headerInput (textarea.SetWidth (Width - 4) (headerInput m)) m in
      Continue m
  | responseMsg r =>
      let m := set_loading false m in
      let m := set_response r m in
      let m := set_state stateViewResponse m in
      let content := responseContent lib (currentRequest m) (response m) in
      let m := set_responseView (viewport.SetContent content (responseView m)) m in
      Return m nilCmd
  | savedRequestsMsg l =>
      let m := set_savedRequests l m in
      let items :=
        map (fun req => mkItem (Name req) (Method req +:+ " " +:+ URL req))
            (savedRequests m) in
      let m := set_requestList (blist.SetItems items (requestList m)) m in
      Return m nilCmd
  | errMsg e =>
      let m := set_loading false m in
      let m := set_err (Some e) m in
      Return m nilCmd
  | spinner_TickMsg =>
      if loading m then
        let '(s, cmd) := spinner_Update lib msg (spinner m) in
        Return (set_spinner s m) (fromLibrary cmd)
      else Continue m
  | libraryMsg _ => Continue m
  end.

(** Lines 386-440: the message is passed on to the widget in use. *)
Definition updateComponents (msg : Msg) (m : model) : model * Cmd :=
  match state m with
  | stateEditRequest =>
      (* Skip component updates for navigation keys *)
      if match msg with KeyMsg keyMsg => isNavKey keyMsg | _ => false end
      then (m, nilCmd)
      else
        let isTab :=
          match msg with
          | KeyMsg keyMsg => bool_decide (key_Type keyMsg = KeyTab)
          | _ => false
          end in
        (* Only update the component that is currently focused *)
        if textinput.Focused (urlInput m) then
          let '(u, cmd) := textinput_Update lib msg (urlInput m) in
          let m := set_urlInput u m in
          let m := set_currentRequest
                     (with_URL (textinput.Value (urlInput m)) (currentRequest m)) m in
          (m, tea_Batch [fromLibrary cmd])
        else if textarea.Focused (bodyInput m) then
          if isTab then (m, nilCmd)
          else
            let '(b, cmd) := textarea_Update lib msg (bodyInput m) in
            let m := set_bodyInput b m in
            let m := set_currentRequest
                       (with_Body (textarea.Value (bodyInput m)) (currentRequest m)) m in
            (m, tea_Batch [fromLibrary cmd])
        else if textarea.Focused (headerInput m) then
          if isTab then (m, nilCmd)
          else
            let '(h, cmd) := textarea_Update lib msg (headerInput m) in
            let m := set_headerInput h m in
            let m := set_currentRequest
                       (with_Headers (parseHeaders (textarea.Value (headerInput m)))
                          (currentRequest m)) m in
            (m, tea_Batch [fromLibrary cmd])
        else
          (* Only update the method list if no other input is focused *)
          let '(l, cmd) := list_Update lib msg (methodList m) in
          (set_methodList l m, tea_Batch [fromLibrary cmd])
  | stateSaveRequest =>
      let '(n, cmd) := textinput_Update lib msg (nameInput m) in
      (set_nameInput n m, tea_Batch [fromLibrary cmd])
  | stateViewResponse =>
      let '(v, cmd) := viewport_Update lib msg (responseView m) in
      (set_responseView v m, tea_Batch [fromLibrary cmd])
  | stateLoadRequest =>
      let '(l, cmd) := list_Update lib msg (requestList m) in
      (set_requestList l m, tea_Batch [fromLibrary cmd])
  | stateMain => (m, tea_Batch [])
  end.

(** [Update]: [None] when the pass panics. *)
Definition Update (msg : Msg) (m : model) : option (model * Cmd) :=
  match handleMsg msg m with
  | Return m cmd => Some (m, cmd)
  | Continue m => Some (updateComponents msg m)
  | Panic => None
  end.

(** A sequence of messages processed in arrival order. *)
Fixpoint run (msgs : list Msg) (m : model) : option model :=
  match msgs with
  | [] => Some m
  | msg :: rest =>
      match Update msg m with
      | Some (m', _) => run rest m'
      | None => None
      end
  end.

End Update.

(** ** Request executor (main.go, [sendRequest]) *)

(** [http.Header] of Go's net/http: header names are kept in canonical
    form and each name carries the list of its values. *)
Module http.

(** [validHeaderFieldByte]: the token characters of RFC 7230. *)
Definition validHeaderFieldByte (b : N) : bool :=
  (((48 <=? b) && (b <=? 57)) || ((65 <=? b) && (b <=? 90))
   || ((97 <=? b) && (b <=? 122)))%N
  || match b with
     | 33 | 35 | 36 | 37 | 38 | 39 | 42 | 43 | 45 | 46
     | 94 | 95 | 96 | 124 | 126 => true
     | _ => false
     end%N.

Fixpoint allValid (s : string) : bool :=
  match s with
  | EmptyString => true
  | String c r => validHeaderFieldByte (N_of_ascii c) && allValid r
  end.

(** First letter and every letter after a dash in upper case, the other
    letters in lower case. *)
Fixpoint canonicalCase (upper : bool) (s : string) : string :=
  match s with
  | EmptyString => EmptyString
  | String c r =>
      let b := N_of_ascii c in
      let b' :=
        (if upper && (97 <=? b) && (b <=? 122) then b - 32
         else if negb upper && (65 <=? b) && (b <=? 90) then b + 32
         else b)%N in
      String (ascii_of_N b') (canonicalCase (b' =? 45)%N r)
  end.

(** [textproto.CanonicalMIMEHeaderKey]: a name with a byte that is not a
    token character is returned unchanged. *)
Definition CanonicalMIMEHeaderKey (s : string) : string :=
  if allValid s then canonicalCase true s else s.

Abbreviation Header := (gmap string (list string)).

Definition Add (key value : string) (h : Header) : Header :=
  let key := CanonicalMIMEHeaderKey key in
  <[key := default [] (h !! key) ++ [value]]> h.

Definition Set_ (key value : string) (h : Header) : Header :=
  <[CanonicalMIMEHeaderKey key := [value]]> h.

Definition Get (h : Header) (key : string) : string :=
  match h !! CanonicalMIMEHeaderKey key with
  | Some (v :: _) => v
  | _ => ""
  end.

(** [*http.Request], as far as [sendRequest] fills it in; [body] is
    [None] for a nil [io.Reader]. *)
Record Request := mkRequest {
  method : string;
  url : string;
  body : option string;
  header : Header
}.

(** [*http.Response]; [Body] is what [io.ReadAll] makes of the response
    body: the bytes read or a read error. *)
Record Response := mkResponse {
  StatusCode : Z;
  Status : string;
  Header_ : Header;
  Body : string + string
}.

End http.

(** What the executor cannot decide by itself: whether [http.NewRequest]
    accepts a method and a URL (an error description when it does not), the
    outcome of the round trip [client.Do] (an error description for a
    transport error or a timeout), how two strings are joined, and the order
    in which a [range] loop visits the entries of a map. *)
Record Network := mkNetwork {
  http_NewRequest : string -> string -> option string;
  client_Do : http.Request -> string + http.Response;
  strings_Join : list string -> string -> string;
  rangeOrder : gmap string string -> list (string * string)
}.

Section Executor.

Variable net : Network.

(** Lines 557-560: every entry of [req.Headers] is added. *)
Definition addHeaders (entries : list (string * string)) (h : http.Header)
  : http.Header :=
  fold_left (fun h kv => http.Add kv.1 kv.2 h) entries h.

(** Lines 562-565: the default content type. *)
Definition defaultContentType (reqBody : string) (h : http.Header) : http.Header :=
  if negb (String.eqb reqBody "") && String.eqb (http.Get h "Content-Type") ""
  then http.Set_ "Content-Type" "application/json" h
  else h.

(** Lines 547-565: the outgoing request, or the error of
    [http.NewRequest]. *)
Definition buildRequest (req : HTTPRequest) : string + http.Request :=
  let reqBody := if negb (String.eqb (Body req) "") then Some (Body req) else None in
  match http_NewRequest net (Method req) (URL req) with
  | Some e => inl e
  | None =>
      (* http.NewRequest: an empty method means GET *)
      let method := if String.eqb (Method req) "" then "GET" else Method req in
      let h := addHeaders (rangeOrder net (Headers req)) ∅ in
      let h := defaultContentType (Body req) h in
      inr (http.mkRequest method (URL req) reqBody h)
  end.

(** The function [sendRequest] returns: the message the command yields
    when the runtime runs it. *)
Definition sendRequest_run (req : HTTPRequest) : Msg :=
  match buildRequest req with
  | inl e => errMsg e
  | inr httpReq =>
      match client_Do net httpReq with
      | inl e => errMsg e
      | inr resp =>
          match http.Body resp with
          | inl e => errMsg e
          | inr body =>
              let headers : gmap string string :=
                (fun v => strings_Join net v ", ") <$> http.Header_ resp in
              responseMsg
                {| resp_StatusCode := http.StatusCode resp;
                   resp_Status := http.Status resp;
                   resp_Headers := headers;
                   resp_Body := body;
                   resp_Error := "" |}
          end
      end
  end.

End Executor.

(** ** Persistence store (main.go, [loadSavedRequests]) *)

Inductive oserror :=
  | ErrNotExist
  | ErrOther (description : string).

Definition os_IsNotExist (e : option oserror) : bool :=
  match e with
  | Some ErrNotExist => true
  | _ => false
  end.

Definition oserror_Error (e : oserror) : string :=
  match e with
  | ErrNotExist => "file does not exist"
  | ErrOther d => d
  end.

Record DirEntry := mkDirEntry { entry_Name : string; entry_IsDir : bool }.

(** The file system as the store sees it, and the JSON decoder:
    [os_Stat] yields the error of [os.Stat] (if any), [os_ReadDir] the
    entries of a directory or an error, [os_ReadFile] the content of a file
    or an error, [json_Unmarshal] the decoded request or [None] for input
    that does not decode. *)
Record FileSystem := mkFileSystem {
  os_Stat : string -> option oserror;
  os_ReadDir : string -> oserror + list DirEntry;
  os_ReadFile : string -> oserror + string;
  json_Unmarshal : string -> option HTTPRequest
}.

(** [filepath.Join] of a directory and a file name. *)
Definition filepath_Join (dir name : string) : string := dir +:+ "/" +:+ name.

Section Store.

Variable fs : FileSystem.

(** Lines 632-647: the body of the loop over the directory entries. *)
Definition loadEntry (requests : list HTTPRequest) (file : DirEntry)
  : list HTTPRequest :=
  if negb (entry_IsDir file) && strings.HasSuffix (entry_Name file) ".json" then
    match os_ReadFile fs (filepath_Join "requests" (entry_Name file)) with
    | inl _ => requests (* continue *)
    | inr data =>
        match json_Unmarshal fs data with
        | None => requests (* continue *)
        | Some req => requests ++ [req]
        end
    end
  else requests.

Definition loadSavedRequests : Msg :=
  (* Check if requests directory exists *)
  if os_IsNotExist (os_Stat fs "requests") then savedRequestsMsg []
  else
    match os_ReadDir fs "requests" with
    | inl e => errMsg (oserror_Error e)
    | inr files => savedRequestsMsg (fold_left loadEntry files [])
    end.

End Store.

(** ** Notions used in the statements *)

(** The four logical fields of the edit form and their cyclic order. A text
    field holds the focus when its widget reports [Focused()]; the method
    list has no focus flag and is in use when no text field is focused
    (line 199). *)
Inductive Field := fieldURL | fieldMethod | fieldHeaders | fieldBody.

#[global] Instance Field_eq_dec : EqDecision Field.
Proof. solve_decision. Defined.

Definition advance (f : Field) : Field :=
  match f with
  | fieldURL => fieldMethod
  | fieldMethod => fieldHeaders
  | fieldHeaders => fieldBody
  | fieldBody => fieldURL
  end.

Definition holdsFocus (m : model) (f : Field) : bool :=
  match f with
  | fieldURL => textinput.Focused (urlInput m)
  | fieldMethod =>
      negb (textinput.Focused (urlInput m))
      && negb (textarea.Focused (headerInput m))
      && negb (textarea.Focused (bodyInput m))
  | fieldHeaders => textarea.Focused (headerInput m)
  | fieldBody => textarea.Focused (bodyInput m)
  end.

Definition focusedFields (m : model) : list Field :=
  List.filter (holdsFocus m) [fieldURL; fieldMethod; fieldHeaders; fieldBody].

(** The text fields that report focus. *)
Definition focusedTextFields (m : model) : list Field :=
  List.filter (holdsFocus m) [fieldURL; fieldHeaders; fieldBody].

(** The text held by the three text fields. *)
Definition fieldContents (m : model) : string * string * string :=
  (textinput.Value (urlInput m), textarea.Value (headerInput m),
   textarea.Value (bodyInput m)).

(** The focus flags of the URL, Headers and Body fields. *)
Definition focusFlags (m : model) : bool * bool * bool :=
  (textinput.Focused (urlInput m), textarea.Focused (headerInput m),
   textarea.Focused (bodyInput m)).

(** The method list points at one of the seven methods. *)
Definition methodIndexValid (m : model) : Prop :=
  0 <= blist.Index (methodList m) < 7.

(** The values added under the canonical name [key] by a sequence of header
    entries, in the order they are added. *)
Definition valuesFor (key : string) (entries : list (string * string)) : list string :=
  map snd (List.filter
             (fun kv => String.eqb (http.CanonicalMIMEHeaderKey kv.1) key) entries).

(** A saved request read back from one directory entry: the entry is a
    regular file named [*.json] that can be read and decoded. *)
Definition decodeEntry (fs : FileSystem) (file : DirEntry) : option HTTPRequest :=
  if negb (entry_IsDir file) && strings.HasSuffix (entry_Name file) ".json" then
    match os_ReadFile fs (filepath_Join "requests" (entry_Name file)) with
    | inl _ => None
    | inr data => json_Unmarshal fs data
    end
  else None.

(** ** Concrete scenarios *)

(** Widgets that take typed runes at the end of their text when focused and
    ignore everything else. *)
Definition typed (msg : Msg) (focused : bool) (text : string) : string :=
  match msg with
  | KeyMsg k =>
      if focused && bool_decide (key_Type k = KeyRunes)
      then text +:+ key_Runes k else text
  | _ => text
  end.

Definition typingWidgets : Bubbles :=
  {| textinput_Update msg t :=
       (textinput.mk (typed msg (textinput.focus t) (textinput.value t))
          (textinput.focus t), None);
     textarea_Update msg t :=
       (textarea.mk (typed msg (textarea.focus t) (textarea.value t))
          (textarea.focus t) (textarea.width t), None);
     list_Update _ l := (l, None);
     viewport_Update _ v := (v, None);
     spinner_Update _ s := (spinner.mk (spinner.frame s + 1), Some 0%nat);
     responseContent req r := Method req +:+ " " +:+ URL req +:+ " " +:+ resp_Body r |}.

Definition keyTab : Msg := KeyMsg (mkKey KeyTab "" false).
Definition keyCtrlN : Msg := KeyMsg (mkKey KeyCtrlN "n" false).
Definition keyEnter : Msg := KeyMsg (mkKey KeyEnter "" false).
Definition keyEsc : Msg := KeyMsg (mkKey KeyEsc "" false).
Definition keyCtrlS : Msg := KeyMsg (mkKey KeyCtrlS "" false).
Definition keyRune (r : string) : Msg := KeyMsg (mkKey KeyRunes r false).

(** The edit form with the Headers field in use and one header typed. *)
Definition editingHeaders : model :=
  let m := set_state stateEditRequest initialModel in
  let m := set_urlInput (textinput.Blur (textinput.SetValue "http://localhost:9/" (urlInput m))) m in
  let m := set_currentRequest (with_URL "http://localhost:9/" (currentRequest m)) m in
  let m := set_headerInput (textarea.Focus (textarea.SetValue "Accept: text/plain" (headerInput m))) m in
  set_currentRequest
    (with_Headers (parseHeaders "Accept: text/plain") (currentRequest m)) m.

(** A request as it may sit in the requests directory; its method is not
    one of [httpMethods]. *)
Definition savedProbe : HTTPRequest :=
  {| Name := "probe"; Method := "PROPFIND"; URL := "http://localhost:9/";
     Headers := ∅; Body := "" |}.

(** A request with a body and a [Content-Type] line without a value, as
    [parseHeaders] yields it for the header text [Content-Type:]. *)
Definition emptyContentType : HTTPRequest :=
  {| Name := ""; Method := "POST"; URL := "http://localhost:9/";
     Headers := parseHeaders "Content-Type:"; Body := "{}" |}.

Definition okResponse : HTTPResponse :=
  {| resp_StatusCode := 200; resp_Status := "200 OK"; resp_Headers := ∅;
     resp_Body := "ok"; resp_Error := "" |}.

(** A network on which every connection is refused. *)
Definition refusingNetwork : Network :=
  {| http_NewRequest _ _ := None;
     client_Do _ := inl "dial tcp 127.0.0.1:9: connect: connection refused";
     strings_Join l sep := fold_right (fun a b => a +:+ sep +:+ b) "" l;
     rangeOrder h := map_to_list h |}.

(** A working directory in which [requests] is a regular file. *)
Definition requestsIsAFile : FileSystem :=
  {| os_Stat _ := None;
     os_ReadDir _ := inl (ErrOther "readdirent requests: not a directory");
     os_ReadFile _ := inl (ErrOther "not a directory");
     json_Unmarshal _ := None |}.

(** A requests directory with a well-formed file, a corrupt file, a file
    of another kind and a sub-directory. *)
Definition mixedDirectory : FileSystem :=
  {| os_Stat _ := None;
     os_ReadDir _ :=
       inr [mkDirEntry "bad.json" false; mkDirEntry "notes.txt" false;
            mkDirEntry "old.json" true; mkDirEntry "probe.json" false];
     os_ReadFile path :=
       if String.eqb path "requests/probe.json" then inr "{probe}"
       else if String.eqb path "requests/bad.json" then inr "{"
       else inl (ErrOther "permission denied");
     json_Unmarshal data :=
       if String.eqb data "{probe}" then Some savedProbe else None |}.

Definition noDirectory : FileSystem :=
  {| os_Stat _ := Some ErrNotExist;
     os_ReadDir _ := inl ErrNotExist;
     os_ReadFile _ := inl ErrNotExist;
     json_Unmarshal _ := None |}.

(** * Properties *)

(** ** The embedding on the inputs of main_test.go *)

(** TestTabNavigation and TestCtrlNNavigation: URL, Method, Headers, Body
    and back to URL. *)
Example replay_TabNavigation (lib : Bubbles) :
  let m0 := set_state stateEditRequest initialModel in
  focusFlags m0 = (true, false, false)
  /\ focusFlags <$> run lib [keyTab] m0 = Some (false, false, false)
  /\ focusFlags <$> run lib [keyTab; keyTab] m0 = Some (false, true, false)
  /\ focusFlags <$> run lib [keyTab; keyTab; keyTab] m0 = Some (false, false, true)
  /\ focusFlags <$> run lib [keyTab; keyTab; keyTab; keyTab] m0
     = Some (true, false, false)
  /\ focusFlags <$> run lib [keyCtrlN; keyCtrlN; keyCtrlN] m0
     = Some (false, false, true).
Proof. repeat split. Qed.

(** TestTextareaDoesNotConsumeTab. *)
Example replay_TextareaDoesNotConsumeTab (lib : Bubbles) :
  let m0 := set_state stateEditRequest initialModel in
  let m1 := set_bodyInput (textarea.Focus (bodyInput m0))
              (set_urlInput (textinput.Blur (urlInput m0)) m0) in
  focusFlags <$> run lib [keyTab] m1 = Some (true, false, false).
Proof. reflexivity. Qed.

(** TestSendRequestWithEnter. *)
Example replay_SendRequestWithEnter (lib : Bubbles) :
  let m0 := set_currentRequest
              (with_URL "https://example.com" (currentRequest initialModel))
              initialModel in
  loading <$> run lib [keyEnter] m0 = Some true.
Proof. reflexivity. Qed.

(** Typing goes to the focused field only and is mirrored in the draft. *)
Example replay_typing :
  let m0 := set_state stateEditRequest initialModel in
  (fun m => (fieldContents m, URL (currentRequest m), Headers (currentRequest m)))
    <$> run typingWidgets
          [keyRune "http://h/"; keyTab; keyTab; keyRune "A: 1"; keyRune "2"] m0
  = Some (("http://h/", "A: 12", ""), "http://h/", {[ "A" := "12" ]}).
Proof. vm_compute. reflexivity. Qed.

(** The header text of TestKeepingValuesWhenNavigating. *)
Example replay_parseHeaders :
  parseHeaders ("Content-Type: application/json"
                +:+ String newline "Accept: application/json")
  = {[ "Content-Type" := "application/json"; "Accept" := "application/json" ]}.
Proof. vm_compute. reflexivity. Qed.

(** Later lines win, the value keeps its inner colons, and white space
    beyond ASCII (here U+00A0 and U+2003) is trimmed as well. *)
Example replay_parseHeaders_edge :
  parseHeaders ("Host: a" +:+ String newline "Host : b:80 "
                +:+ String newline
                    (String (ascii_of_nat 194) (String (ascii_of_nat 160) "X: y")
                     +:+ String (ascii_of_nat 226)
                           (String (ascii_of_nat 128) (String (ascii_of_nat 131) ""))))
  = {[ "Host" := "b:80"; "X" := "y" ]}.
Proof. vm_compute. reflexivity. Qed.

Example replay_CanonicalMIMEHeaderKey :
  map http.CanonicalMIMEHeaderKey ["content-type"; "CONTENT-TYPE"; "x-request-ID"; "bad key"]
  = ["Content-Type"; "Content-Type"; "X-Request-Id"; "bad key"].
Proof. reflexivity. Qed.

(** ** Header parser *)

(** [Cut] splits at the first occurrence of the separator. *)
Lemma Cut_Some (s a b : string) (sep : ascii) :
  strings.Cut s sep = Some (a, b) ->
  s = a +:+ String sep b /\ strings.Cut a sep = None.
Proof.
  revert a. induction s as [|c s IH]; intros a; simpl; [done|].
  destruct (Ascii.eqb c sep) eqn:E.
  - apply Ascii.eqb_eq in E. subst c. by intros [= <- <-].
  - destruct (strings.Cut s sep) as [[a' b']|]; [|done].
    intros [= <- <-]. destruct (IH a' eq_refl) as [-> Ha].
    split; [done|]. simpl. by rewrite E, Ha.
Qed.

Lemma Cut_None (s : string) (sep : ascii) :
  strings.Cut s sep = None -> forall a b, s <> a +:+ String sep b.
Proof.
  induction s as [|c s IH]; simpl; intros H a b E.
  - by destruct a.
  - destruct (Ascii.eqb c sep) eqn:Ec; [done|].
    destruct (strings.Cut s sep) as [[a' b']|]; [done|].
    destruct a as [|c' a]; simpl in E; injection E as -> E.
    + by rewrite Ascii.eqb_refl in Ec.
    + by apply (IH eq_refl a b).
Qed.

Lemma SplitN_two (s : string) :
  strings.SplitN s colon 2 =
  match strings.Cut s colon with
  | Some (a, b) => [a; b]
  | None => [s]
  end.
Proof. simpl. destruct (strings.Cut s colon) as [[a b]|]; reflexivity. Qed.

Lemma parseHeaders_line_entry (headers : gmap string string) (line : string) :
  parseHeaders_line headers line =
  fold_left insertEntry
    (omap header_entry
       (List.filter (fun l => negb (String.eqb l "")) [strings.TrimSpace line]))
    headers.
Proof.
  unfold parseHeaders_line. rewrite SplitN_two. simpl.
  destruct (String.eqb (strings.TrimSpace line) "") eqn:E; simpl; [done|].
  unfold header_entry.
  destruct (strings.Cut (strings.TrimSpace line) colon) as [[a b]|]; done.
Qed.

Lemma parseHeaders_loop (lines : list string) (headers : gmap string string) :
  fold_left parseHeaders_line lines headers =
  fold_left insertEntry
    (omap header_entry
       (List.filter (fun l => negb (String.eqb l "")) (map strings.TrimSpace lines)))
    headers.
Proof.
  revert headers. induction lines as [|line lines IH]; intros headers; [done|].
  cbn [fold_left map]. rewrite IH, parseHeaders_line_entry.
  cbn [List.filter].
  destruct (negb (String.eqb (strings.TrimSpace line) "")); cbn [omap list_omap];
    [|done].
  destruct (header_entry (strings.TrimSpace line)); done.
Qed.

Lemma fold_insert_last_wins (entries : list (string * string)) (headers : gmap string string) :
  fold_left insertEntry entries headers = list_to_map (reverse entries) ∪ headers.
Proof.
  revert headers. induction entries as [|[k v] entries IH]; intros headers.
  - simpl. by rewrite (left_id_L ∅ (∪)).
  - cbn [fold_left]. rewrite IH, reverse_cons, list_to_map_app. simpl.
    unfold insertEntry; simpl.
    rewrite <- (assoc_L (∪)). f_equal.
    rewrite insert_empty. by rewrite <- insert_union_singleton_l.
Qed.

(** C6. [parseHeaders] is the algorithm of the specification: the lines of
    the input are trimmed, blank lines and lines without a colon are dropped,
    every other line is split at its first colon into a trimmed key and a
    trimmed value, and the entries are inserted in order, so that the last
    entry of a key is the one that stays. The input made of a blank line,
    the line NoColonHere and the line "A: B  " yields the one-entry mapping
    from A to B. *)
Theorem parseHeaders_algorithm :
  (forall input, parseHeaders input = parseHeaders_spec input)
  /\ (forall input, parseHeaders input = list_to_map (reverse (header_entries input)))
  /\ parseHeaders ignoredLinesInput = {[ "A" := "B" ]}.
Proof.
  assert (Hspec : forall input, parseHeaders input = parseHeaders_spec input).
  { intros input. unfold parseHeaders, parseHeaders_spec, header_entries.
    apply parseHeaders_loop. }
  split; [exact Hspec|]. split.
  - intros input. rewrite Hspec. unfold parseHeaders_spec.
    rewrite fold_insert_last_wins. by rewrite (right_id_L ∅ (∪)).
  - vm_compute. reflexivity.
Qed.

(** ** Navigation *)

Lemma slice_index_httpMethods (i : Z) :
  0 <= i < 7 -> exists method, slice_index httpMethods i = Some method.
Proof.
  intros Hi.
  assert (i = 0 \/ i = 1 \/ i = 2 \/ i = 3 \/ i = 4 \/ i = 5 \/ i = 6) as Hc by lia.
  destruct Hc as [->|[->|[->|[->|[->|[->| ->]]]]]]; eexists; reflexivity.
Qed.

Lemma indexOf_httpMethods_range (val : string) : 0 <= indexOf val httpMethods < 7.
Proof.
  unfold indexOf, httpMethods. cbn -[String.eqb].
  repeat (destruct (String.eqb _ val); [lia|]). lia.
Qed.

(** Selecting the entry [indexOf] finds gives the method back when it is
    one of [httpMethods], and GET otherwise. *)
Lemma selected_method (val : string) :
  slice_index httpMethods (indexOf val httpMethods) =
  Some (if is_one_of val httpMethods then val else "GET").
Proof.
  unfold indexOf, is_one_of, httpMethods. cbn -[String.eqb].
  rewrite !(String.eqb_sym val).
  repeat (destruct (String.eqb _ val) eqn:E;
          [apply String.eqb_eq in E; subst val; reflexivity|clear E]).
  reflexivity.
Qed.

Lemma isNavKey_string (k : Key) : isNavKey k = true -> Key_String k <> "".
Proof.
  unfold isNavKey, Key_String. destruct k as [t r a]; simpl.
  intros H E.
  destruct t, a; simpl in *; try discriminate E; rewrite E in H; discriminate H.
Qed.

Lemma append_nonempty (s t : string) : t <> "" -> s +:+ t <> s.
Proof.
  intros Ht E. induction s as [|c s IH]; simpl in E; [done|].
  injection E as E. auto.
Qed.

(** One navigation key moves the focus one field on. *)
Lemma navigate_step (lib : Bubbles) (m : model) (f : Field) (k : Key) :
  state m = stateEditRequest ->
  isNavKey k = true ->
  focusedFields m = [f] ->
  (f = fieldMethod -> methodIndexValid m) ->
  exists m' c,
    Update lib (KeyMsg k) m = Some (m', c)
    /\ state m' = stateEditRequest
    /\ focusedFields m' = [advance f]
    /\ (advance f = fieldMethod -> methodIndexValid m').
Proof.
  intros Hs Hk Hf Hi.
  unfold Update, handleMsg. rewrite Hs, Hk. simpl.
  unfold navigate, focusedFields, holdsFocus, methodIndexValid in *.
  destruct m as [st w h cr rs ml [uv uf] [bv bf bw] [hv hf hw] ni rv sp ld sr rl er].
  simpl in *. subst st.
  destruct uf, hf, bf; simpl in *; simplify_eq; simpl.
  - do 2 eexists. split; [reflexivity|]. simpl.
    split; [reflexivity|]. split; [reflexivity|].
    intros _. apply indexOf_httpMethods_range.
  - do 2 eexists. split; [reflexivity|]. simpl.
    split; [reflexivity|]. split; [reflexivity|discriminate].
  - do 2 eexists. split; [reflexivity|]. simpl.
    split; [reflexivity|]. split; [reflexivity|discriminate].
  - destruct (slice_index_httpMethods (blist.index ml)) as [method Hm]; [auto|].
    unfold blist.Index. rewrite Hm.
    do 2 eexists. split; [reflexivity|]. simpl.
    split; [reflexivity|]. split; [reflexivity|discriminate].
Qed.

(** C2. In Editing mode, from any of the four logical fields, four
    navigation keys bring the focus back to the field it started from, and
    after every one of the four steps exactly one logical field holds the
    focus, the next one in the order URL, Method, Headers, Body. *)
Theorem full_circle_navigation (lib : Bubbles) (m : model) (f : Field)
    (k1 k2 k3 k4 : Key) :
  state m = stateEditRequest ->
  focusedFields m = [f] ->
  (f = fieldMethod -> methodIndexValid m) ->
  isNavKey k1 = true -> isNavKey k2 = true ->
  isNavKey k3 = true -> isNavKey k4 = true ->
  exists m1 m2 m3 m4 c1 c2 c3 c4,
    Update lib (KeyMsg k1) m = Some (m1, c1)
    /\ Update lib (KeyMsg k2) m1 = Some (m2, c2)
    /\ Update lib (KeyMsg k3) m2 = Some (m3, c3)
    /\ Update lib (KeyMsg k4) m3 = Some (m4, c4)
    /\ focusedFields m1 = [advance f]
    /\ focusedFields m2 = [advance (advance f)]
    /\ focusedFields m3 = [advance (advance (advance f))]
    /\ focusedFields m4 = [f]
    /\ state m4 = stateEditRequest.
Proof.
  intros Hs Hf Hi H1 H2 H3 H4.
  destruct (navigate_step lib m f k1 Hs H1 Hf Hi) as (m1 & c1 & U1 & S1 & F1 & I1).
  destruct (navigate_step lib m1 _ k2 S1 H2 F1 I1) as (m2 & c2 & U2 & S2 & F2 & I2).
  destruct (navigate_step lib m2 _ k3 S2 H3 F2 I2) as (m3 & c3 & U3 & S3 & F3 & I3).
  destruct (navigate_step lib m3 _ k4 S3 H4 F3 I3) as (m4 & c4 & U4 & S4 & F4 & I4).
  exists m1, m2, m3, m4, c1, c2, c3, c4.
  repeat (split; [assumption|]). split; [|assumption].
  rewrite F4. by destruct f.
Qed.

Lemma full_circle_navigation_witness :
  let m := set_state stateEditRequest initialModel in
  let tab := mkKey KeyTab "" false in
  let ctrlN := mkKey KeyCtrlN "n" false in
  state m = stateEditRequest
  /\ focusedFields m = [fieldURL]
  /\ isNavKey tab = true /\ isNavKey ctrlN = true
  /\ exists m1 m2 m3 m4 c1 c2 c3 c4,
       Update typingWidgets (KeyMsg tab) m = Some (m1, c1)
       /\ Update typingWidgets (KeyMsg ctrlN) m1 = Some (m2, c2)
       /\ Update typingWidgets (KeyMsg tab) m2 = Some (m3, c3)
       /\ Update typingWidgets (KeyMsg ctrlN) m3 = Some (m4, c4)
       /\ focusedFields m1 = [fieldMethod]
       /\ focusedFields m2 = [fieldHeaders]
       /\ focusedFields m3 = [fieldBody]
       /\ focusedFields m4 = [fieldURL]
       /\ state m4 = stateEditRequest.
Proof.
  intros m tab ctrlN.
  split; [reflexivity|]. split; [reflexivity|].
  split; [reflexivity|]. split; [reflexivity|].
  apply (full_circle_navigation typingWidgets m fieldURL tab ctrlN tab ctrlN);
    try reflexivity.
  discriminate.
Defined.

(** C3. Leaving Editing with escape while the Headers field is focused and
    entering it again focuses the URL field without blurring Headers: two
    text fields report focus at once. *)
Theorem reentry_focuses_two_fields (lib : Bubbles) :
  exists m,
    run lib [keyRune "e"; keyTab; keyTab; keyEsc; keyRune "e"] initialModel = Some m
    /\ state m = stateEditRequest
    /\ focusedTextFields m = [fieldURL; fieldHeaders].
Proof. eexists. split; [reflexivity|]. split; reflexivity. Qed.

(** C4. In Editing mode with a text field focused, a navigation key leaves
    the content of the URL, Headers and Body fields as it was, so nothing,
    and in particular not the name of the key, is appended to any of them;
    the outcome is the same whatever the fields' input handlers are, which
    are never run on the key. *)
Theorem navigation_key_not_typed (lib : Bubbles) (m : model) (k : Key) :
  state m = stateEditRequest ->
  isNavKey k = true ->
  focusedTextFields m <> [] ->
  exists m' c,
    Update lib (KeyMsg k) m = Some (m', c)
    /\ fieldContents m' = fieldContents m
    /\ Key_String k <> ""
    /\ textinput.Value (urlInput m') <> textinput.Value (urlInput m) +:+ Key_String k
    /\ textarea.Value (headerInput m') <> textarea.Value (headerInput m) +:+ Key_String k
    /\ textarea.Value (bodyInput m') <> textarea.Value (bodyInput m) +:+ Key_String k
    /\ forall lib', Update lib' (KeyMsg k) m = Some (m', c).
Proof.
  intros Hs Hk Hf.
  pose proof (isNavKey_string k Hk) as Hne.
  assert (exists m' c, (forall lib', Update lib' (KeyMsg k) m = Some (m', c))
                       /\ fieldContents m' = fieldContents m) as (m' & c & HU & HC).
  { unfold Update, handleMsg. rewrite Hs, Hk. simpl.
    unfold navigate, focusedTextFields, holdsFocus, fieldContents in *.
    destruct m as [st w h cr rs ml [uv uf] [bv bf bw] [hv hf hw] ni rv sp ld sr rl er].
    simpl in *.
    destruct uf, hf, bf; simpl in *; try done;
      do 2 eexists; (split; [intros lib'; reflexivity|reflexivity]). }
  exists m', c. split; [apply HU|]. split; [exact HC|]. split; [exact Hne|].
  unfold fieldContents in HC. injection HC as -> -> ->.
  repeat split; auto using append_nonempty.
  all: intros E; symmetry in E; revert E; by apply append_nonempty.
Qed.

Lemma navigation_key_not_typed_witness :
  let m := editingHeaders in
  let k := mkKey KeyTab "" false in
  state m = stateEditRequest
  /\ isNavKey k = true
  /\ focusedTextFields m <> []
  /\ exists m' c,
       Update typingWidgets (KeyMsg k) m = Some (m', c)
       /\ fieldContents m' = fieldContents m
       /\ Key_String k <> ""
       /\ textinput.Value (urlInput m') <> textinput.Value (urlInput m) +:+ Key_String k
       /\ textarea.Value (headerInput m') <> textarea.Value (headerInput m) +:+ Key_String k
       /\ textarea.Value (bodyInput m') <> textarea.Value (bodyInput m) +:+ Key_String k
       /\ forall lib', Update lib' (KeyMsg k) m = Some (m', c).
Proof.
  intros m k.
  split; [reflexivity|]. split; [reflexivity|]. split; [discriminate|].
  apply (navigation_key_not_typed typingWidgets m k); [reflexivity|reflexivity|discriminate].
Defined.

(** C5, as the claim states it, fails: a request loaded from disk with the
    method PROPFIND is opened in the edit form; the navigation key that
    leaves the Method field rewrites the draft's method to GET. *)
Lemma navigation_rewrites_method :
  (m ← run typingWidgets
         [savedRequestsMsg [savedProbe]; keyRune "l"; keyEnter; keyRune "e"; keyTab]
         initialModel;
   r ← Update typingWidgets keyTab m;
   Some (state m, Method (currentRequest m), Method (currentRequest r.1)))
  = Some (stateEditRequest, "PROPFIND", "GET").
Proof. reflexivity. Qed.

(** C5, amended. In Editing mode a navigation key leaves name, URL, headers
    and body of the draft unchanged. The method is unchanged unless the
    focus leaves the Method field; there it becomes the entry of
    [httpMethods] the method list points at. When the focus went from URL
    to Method and on, that entry is the draft's own method if it is one of
    [httpMethods], and GET otherwise. *)
Theorem navigation_draft_effect (lib : Bubbles) (m m' : model) (k : Key) (c : Cmd) :
  state m = stateEditRequest ->
  isNavKey k = true ->
  Update lib (KeyMsg k) m = Some (m', c) ->
  Name (currentRequest m') = Name (currentRequest m)
  /\ URL (currentRequest m') = URL (currentRequest m)
  /\ Headers (currentRequest m') = Headers (currentRequest m)
  /\ Body (currentRequest m') = Body (currentRequest m)
  /\ (holdsFocus m fieldMethod = false ->
      Method (currentRequest m') = Method (currentRequest m))
  /\ (holdsFocus m fieldMethod = true ->
      slice_index httpMethods (blist.Index (methodList m))
      = Some (Method (currentRequest m')))
  /\ (focusedFields m = [fieldURL] ->
      forall k2, isNavKey k2 = true ->
      exists m2 c2,
        Update lib (KeyMsg k2) m' = Some (m2, c2)
        /\ currentRequest m2 =
           with_Method
             (if is_one_of (Method (currentRequest m)) httpMethods
              then Method (currentRequest m) else "GET")
             (currentRequest m)).
Proof.
  intros Hs Hk HU.
  unfold Update, handleMsg in HU. rewrite Hs, Hk in HU. simpl in HU.
  unfold navigate, focusedFields, holdsFocus in *.
  destruct m as [st w h cr rs ml [uv uf] [bv bf bw] [hv hf hw] ni rv sp ld sr rl er].
  simpl in *. subst st.
  destruct uf; simpl in *.
  - simplify_eq. simpl. do 6 (split; [done|]).
    intros Hf k2 Hk2. unfold Update, handleMsg. simpl. rewrite Hk2. simpl.
    destruct hf, bf; simpl in *; simplify_eq.
    unfold navigate. simpl. unfold blist.Index. simpl.
    rewrite selected_method. do 2 eexists. split; reflexivity.
  - destruct hf, bf; simpl in *;
      try (simplify_eq; simpl; repeat (split; [done|]); done).
    destruct (slice_index httpMethods (blist.Index ml)) as [method|] eqn:E;
      simplify_eq. simpl.
    repeat (split; [done|]). done.
Qed.

Lemma navigation_draft_effect_witness :
  let m := editingHeaders in
  let k := mkKey KeyCtrlN "n" false in
  state m = stateEditRequest
  /\ isNavKey k = true
  /\ exists m' c,
       Update typingWidgets (KeyMsg k) m = Some (m', c)
       /\ Name (currentRequest m') = Name (currentRequest m)
       /\ URL (currentRequest m') = URL (currentRequest m)
       /\ Headers (currentRequest m') = Headers (currentRequest m)
       /\ Body (currentRequest m') = Body (currentRequest m)
       /\ Method (currentRequest m') = Method (currentRequest m).
Proof.
  intros m k. split; [reflexivity|]. split; [reflexivity|].
  eexists _, _. split; [reflexivity|].
  destruct (navigation_draft_effect typingWidgets m _ k _
              eq_refl eq_refl eq_refl) as (H1 & H2 & H3 & H4 & H5 & _).
  split; [exact H1|]. split; [exact H2|]. split; [exact H3|].
  split; [exact H4|]. exact (H5 eq_refl).
Defined.

(** ** Sending *)

(** C1, as the claim states it, fails: a saved request is loaded and sent
    from Idle; while that send is outstanding, the send key is pressed
    again and a second request is dispatched. *)
Lemma second_send_while_busy :
  (m ← run typingWidgets
         [savedRequestsMsg [savedProbe]; keyRune "l"; keyEnter; keyEnter]
         initialModel;
   r ← Update typingWidgets keyEnter m;
   Some (state m, loading m, dispatched r.2, loading r.1))
  = Some (stateMain, true, [savedProbe], true).
Proof. reflexivity. Qed.

(** C1, amended. In Idle mode the send key is honoured exactly when the URL
    of the draft is not empty, whether or not a send is outstanding: one
    request, the current draft, is dispatched, busy is true afterwards and
    nothing else in the state changes, the draft included. With an empty
    URL nothing is dispatched and the state stays as it is. *)
Theorem idle_send_gated_by_url_only (lib : Bubbles) (m : model) (k : Key) :
  state m = stateMain ->
  Key_String k = "enter" ->
  (URL (currentRequest m) <> "" ->
   Update lib (KeyMsg k) m =
   Some (set_loading true m, tea_Batch [spinner_Tick; sendRequest (currentRequest m)])
   /\ dispatched (tea_Batch [spinner_Tick; sendRequest (currentRequest m)])
      = [currentRequest m]
   /\ loading (set_loading true m) = true
   /\ currentRequest (set_loading true m) = currentRequest m)
  /\ (URL (currentRequest m) = "" ->
      Update lib (KeyMsg k) m = Some (m, tea_Batch [])
      /\ dispatched (tea_Batch []) = []).
Proof.
  intros Hs Hk. unfold Update, handleMsg, handleKey, updateComponents.
  rewrite Hs, Hk. simpl. rewrite Hs. split.
  - intros Hu. apply String.eqb_neq in Hu. rewrite Hu. simpl. done.
  - intros Hu. rewrite Hu. simpl. rewrite Hs. done.
Qed.

Lemma idle_send_gated_by_url_only_witness :
  let m := set_loading true
             (set_currentRequest savedProbe initialModel) in
  let k := mkKey KeyEnter "" false in
  state m = stateMain
  /\ Key_String k = "enter"
  /\ URL (currentRequest m) <> ""
  /\ loading m = true
  /\ Update typingWidgets (KeyMsg k) m =
     Some (set_loading true m, tea_Batch [spinner_Tick; sendRequest (currentRequest m)]).
Proof.
  intros m k. split; [reflexivity|]. split; [reflexivity|].
  split; [discriminate|]. split; [reflexivity|].
  apply (idle_send_gated_by_url_only typingWidgets m k); [reflexivity|reflexivity|discriminate].
Defined.

(** An [Update] that dispatches a send leaves the machine in Idle mode,
    busy, and the request sent is the draft. *)
Lemma dispatch_leaves_idle (lib : Bubbles) (msg : Msg) (m m' : model) (c : Cmd)
    (req : HTTPRequest) :
  Update lib msg m = Some (m', c) ->
  In req (dispatched c) ->
  state m' = stateMain /\ loading m' = true /\ req = currentRequest m'.
Proof.
  unfold Update, handleMsg, handleKey, navigate, updateComponents, is_one_of, fromLibrary.
  intros HU Hin.
  destruct msg; simpl in HU;
    repeat (case_match; simplify_eq/=); simplify_eq/=; intuition (subst; auto).
Qed.

(** The three ways the executor fails. *)
Lemma sendRequest_run_failure (net : Network) (req : HTTPRequest) (e : string) :
  sendRequest_run net req = errMsg e <->
  http_NewRequest net (Method req) (URL req) = Some e
  \/ exists httpReq,
       buildRequest net req = inr httpReq
       /\ (client_Do net httpReq = inl e
           \/ exists resp, client_Do net httpReq = inr resp /\ http.Body resp = inl e).
Proof.
  unfold sendRequest_run, buildRequest.
  destruct (http_NewRequest net (Method req) (URL req)) as [e'|] eqn:EN.
  - split; [intros [= ->]; by left|].
    intros [[= ->]|(r & [=] & _)]. done.
  - match goal with |- context [client_Do net ?r] => set (httpReq := r) end.
    destruct (client_Do net httpReq) as [e'|resp] eqn:ED.
    + split; [intros [= ->]; right; exists httpReq; split; [done|by left]|].
      intros [[=]|(r & [= <-] & [H|(resp & H & _)])]; congruence.
    + destruct (http.Body resp) as [e'|b] eqn:EB.
      * split; [intros [= ->]; right; exists httpReq; split; [done|right; eauto]|].
        intros [[=]|(r & [= <-] & [H|(resp' & H & H')])]; congruence.
      * split; [discriminate|].
        intros [[=]|(r & [= <-] & [H|(resp' & H & H')])]; congruence.
Qed.

(** C8, as the claim states it, fails: a send is dispatched from Idle, the
    user opens the edit form while it is outstanding, and the connection
    is refused; the failure event leaves the machine in Editing mode. *)
Lemma failure_arrives_in_editing :
  (m ← run typingWidgets
         [savedRequestsMsg [savedProbe]; keyRune "l"; keyEnter; keyEnter; keyRune "e"]
         initialModel;
   r ← Update typingWidgets (sendRequest_run refusingNetwork savedProbe) m;
   Some (loading m, state m, state r.1, loading r.1, err r.1))
  = Some (true, stateEditRequest, stateEditRequest, false,
          Some "dial tcp 127.0.0.1:9: connect: connection refused").
Proof. reflexivity. Qed.

(** C8, amended. When a send fails (request construction error, transport
    error or timeout), processing the failure event leaves the mode as it
    is, with busy false, last_error set to the failure description and the
    stored response unchanged. The mode is Idle (not ViewingResponse) when
    the event is processed in the state the dispatch left. *)
Theorem send_failure_keeps_mode (lib : Bubbles) (net : Network)
    (req : HTTPRequest) (e : string) (m : model) :
  (http_NewRequest net (Method req) (URL req) = Some e
   \/ exists httpReq,
        buildRequest net req = inr httpReq
        /\ (client_Do net httpReq = inl e
            \/ exists resp,
                 client_Do net httpReq = inr resp /\ http.Body resp = inl e)) ->
  exists m',
    sendRequest_run net req = errMsg e
    /\ Update lib (sendRequest_run net req) m = Some (m', nilCmd)
    /\ state m' = state m
    /\ loading m' = false
    /\ err m' = Some e
    /\ response m' = response m
    /\ currentRequest m' = currentRequest m
    /\ (forall msg m0 c,
          Update lib msg m0 = Some (m, c) -> In req (dispatched c) ->
          state m' = stateMain).
Proof.
  intros Hfail. apply sendRequest_run_failure in Hfail. rewrite Hfail.
  eexists. split; [reflexivity|]. split; [reflexivity|]. simpl.
  repeat (split; [reflexivity|]).
  intros msg m0 c HU Hin.
  by destruct (dispatch_leaves_idle lib msg m0 m c req HU Hin) as (-> & _).
Qed.

Lemma send_failure_keeps_mode_witness :
  let m := set_loading true (set_currentRequest savedProbe initialModel) in
  let e := "dial tcp 127.0.0.1:9: connect: connection refused" in
  (exists httpReq,
     buildRequest refusingNetwork savedProbe = inr httpReq
     /\ client_Do refusingNetwork httpReq = inl e)
  /\ exists m',
       Update typingWidgets (sendRequest_run refusingNetwork savedProbe) m
       = Some (m', nilCmd)
       /\ state m' = stateMain
       /\ loading m' = false
       /\ err m' = Some e
       /\ response m' = response m.
Proof.
  intros m e. split; [eexists; split; reflexivity|].
  destruct (send_failure_keeps_mode typingWidgets refusingNetwork savedProbe e m)
    as (m' & _ & HU & Hs & Hl & He & Hr & _).
  { right. eexists. split; [reflexivity|]. left. reflexivity. }
  exists m'. split; [exact HU|]. split; [exact Hs|]. split; [exact Hl|].
  split; [exact He|exact Hr].
Defined.

(** C9, as the claim states it, fails: after a failed send, neither a
    successful send nor a refreshed list of saved requests clears the
    recorded failure. *)
Lemma success_keeps_last_error :
  (m1 ← run typingWidgets
          [sendRequest_run refusingNetwork savedProbe; responseMsg okResponse]
          initialModel;
   m2 ← run typingWidgets [savedRequestsMsg [savedProbe]] m1;
   Some (state m1, err m1, err m2))
  = Some (stateViewResponse,
          Some "dial tcp 127.0.0.1:9: connect: connection refused",
          Some "dial tcp 127.0.0.1:9: connect: connection refused").
Proof. reflexivity. Qed.

(** C9, amended. The recorded failure changes only when an error event
    arrives, which replaces it with the new description; every other event,
    a completed send and a refreshed list of saved requests included,
    leaves it as it was. *)
Theorem last_error_only_replaced (lib : Bubbles) (msg : Msg) (m m' : model) (c : Cmd) :
  Update lib msg m = Some (m', c) ->
  err m' = match msg with
           | errMsg e => Some e
           | _ => err m
           end.
Proof.
  unfold Update, handleMsg, handleKey, navigate, updateComponents, is_one_of.
  intros HU.
  destruct msg; simpl in HU;
    repeat (case_match; simplify_eq/=); simplify_eq/=; reflexivity.
Qed.

Lemma last_error_only_replaced_witness :
  let m := set_err (Some "boom") initialModel in
  exists m',
    Update typingWidgets (responseMsg okResponse) m = Some (m', nilCmd)
    /\ err m' = Some "boom".
Proof.
  intros m. eexists. split; [reflexivity|].
  exact (last_error_only_replaced typingWidgets (responseMsg okResponse) m _ nilCmd
           eq_refl).
Defined.

(** ** Request executor *)

Lemma addHeaders_lookup (entries : list (string * string)) (h : http.Header)
    (key : string) :
  addHeaders entries h !! key =
  match valuesFor key entries with
  | [] => h !! key
  | vs => Some (default [] (h !! key) ++ vs)
  end.
Proof.
  revert h. induction entries as [|[k v] entries IH]; intros h; [done|].
  unfold addHeaders in *. cbn [fold_left]. rewrite IH. clear IH.
  unfold valuesFor. cbn [List.filter fst snd]. unfold http.Add.
  destruct (String.eqb (http.CanonicalMIMEHeaderKey k) key) eqn:E.
  - apply String.eqb_eq in E. subst key. rewrite lookup_insert_eq. cbn [map].
    destruct (map snd _) as [|v' vs]; simpl; [done|].
    by rewrite <- app_assoc.
  - apply String.eqb_neq in E. by rewrite lookup_insert_ne.
Qed.

Lemma valuesFor_In (key v : string) (entries : list (string * string)) :
  In v (valuesFor key entries) <->
  exists k, In (k, v) entries /\ http.CanonicalMIMEHeaderKey k = key.
Proof.
  unfold valuesFor. rewrite in_map_iff. split.
  - intros ([k v'] & <- & Hin). apply filter_In in Hin as [Hin E].
    apply String.eqb_eq in E. eauto.
  - intros (k & Hin & E). exists (k, v). split; [done|].
    apply filter_In. split; [done|]. by apply String.eqb_eq.
Qed.

Lemma rangeOrder_In (net : Network) (headers : gmap string string) (k v : string) :
  rangeOrder net headers ≡ₚ map_to_list headers ->
  In (k, v) (rangeOrder net headers) <-> headers !! k = Some v.
Proof.
  intros Hp. rewrite <- list_elem_of_In, Hp. apply elem_of_map_to_list.
Qed.

Lemma Get_Set (key value : string) (h : http.Header) :
  http.Get (http.Set_ key value h) key = value.
Proof. unfold http.Get, http.Set_. by rewrite lookup_insert_eq. Qed.

(** What [Get] reads after the entries have been added to an empty header:
    the first value added under the name. *)
Lemma Get_addHeaders (entries : list (string * string)) :
  http.Get (addHeaders entries ∅) "Content-Type" =
  hd "" (valuesFor "Content-Type" entries).
Proof.
  unfold http.Get. change (http.CanonicalMIMEHeaderKey "Content-Type") with "Content-Type".
  rewrite addHeaders_lookup, lookup_empty.
  by destruct (valuesFor "Content-Type" entries).
Qed.

(** C7, as the claim states it, fails: the header text [Content-Type:]
    supplies a Content-Type entry with an empty value; with a body, the
    executor replaces it by application/json. *)
Lemma empty_content_type_overridden :
  Headers emptyContentType = {[ "Content-Type" := "" ]}
  /\ Body emptyContentType = "{}"
  /\ buildRequest refusingNetwork emptyContentType
     = inr (http.mkRequest "POST" "http://localhost:9/" (Some "{}")
              {[ "Content-Type" := ["application/json"] ]}).
Proof. split; [|split]; vm_compute; reflexivity. Qed.

(** C7, amended. Every entry of the request's headers is added to the
    outgoing header under its canonical name. For a request with a body:
    if no entry names Content-Type, or every entry that does has an empty
    value, the outgoing Content-Type is set to application/json; if
    Content-Type is supplied and every entry naming it has a non-empty
    value, the header is sent as supplied and not overridden. For a
    request without a body no default is added. *)
Theorem content_type_default (net : Network) (req : HTTPRequest)
    (httpReq : http.Request) :
  rangeOrder net (Headers req) ≡ₚ map_to_list (Headers req) ->
  buildRequest net req = inr httpReq ->
  let supplied := addHeaders (rangeOrder net (Headers req)) ∅ in
  (forall k v, Headers req !! k = Some v ->
     exists vs, supplied !! http.CanonicalMIMEHeaderKey k = Some vs /\ In v vs)
  /\ (Body req <> "" ->
      (forall k v, Headers req !! k = Some v ->
         http.CanonicalMIMEHeaderKey k <> "Content-Type") ->
      http.header httpReq = http.Set_ "Content-Type" "application/json" supplied
      /\ http.Get (http.header httpReq) "Content-Type" = "application/json")
  /\ (Body req <> "" ->
      (forall k v, Headers req !! k = Some v ->
         http.CanonicalMIMEHeaderKey k = "Content-Type" -> v = "") ->
      http.header httpReq = http.Set_ "Content-Type" "application/json" supplied
      /\ http.Get (http.header httpReq) "Content-Type" = "application/json")
  /\ (Body req <> "" ->
      (exists k v, Headers req !! k = Some v
                   /\ http.CanonicalMIMEHeaderKey k = "Content-Type") ->
      (forall k v, Headers req !! k = Some v ->
         http.CanonicalMIMEHeaderKey k = "Content-Type" -> v <> "") ->
      http.header httpReq = supplied
      /\ http.Get (http.header httpReq) "Content-Type" <> "")
  /\ (Body req = "" -> http.header httpReq = supplied).
Proof.
  intros Hp HB supplied.
  unfold buildRequest in HB.
  destruct (http_NewRequest net (Method req) (URL req)); [discriminate|].
  injection HB as <-. cbn [http.header]. fold supplied.
  assert (Hempty : Body req <> "" ->
            (forall k v, Headers req !! k = Some v ->
               http.CanonicalMIMEHeaderKey k = "Content-Type" -> v = "") ->
            defaultContentType (Body req) supplied
            = http.Set_ "Content-Type" "application/json" supplied
            /\ http.Get (defaultContentType (Body req) supplied) "Content-Type"
               = "application/json").
  { intros Hb Hv. apply String.eqb_neq in Hb.
    assert (http.Get supplied "Content-Type" = "") as HG.
    { unfold supplied. rewrite Get_addHeaders.
      destruct (valuesFor "Content-Type" (rangeOrder net (Headers req)))
        as [|v vs] eqn:E; [done|]. simpl.
      assert (In v (valuesFor "Content-Type" (rangeOrder net (Headers req))))
        as Hin by (rewrite E; by left).
      apply valuesFor_In in Hin as (k & Hin & Hk).
      apply (rangeOrder_In net _ _ _ Hp) in Hin. eauto. }
    unfold defaultContentType. rewrite Hb, HG. simpl.
    split; [done|]. apply Get_Set. }
  split; [|split; [|split; [|split]]].
  - intros k v Hkv. apply (rangeOrder_In net _ _ _ Hp) in Hkv.
    assert (In v (valuesFor (http.CanonicalMIMEHeaderKey k)
                    (rangeOrder net (Headers req)))) as Hin
      by (apply valuesFor_In; eauto).
    unfold supplied. rewrite addHeaders_lookup, lookup_empty.
    destruct (valuesFor _ _) as [|v' vs]; [done|]. simpl. eauto.
  - intros Hb Hno. apply Hempty; [done|]. intros k v Hkv Hk.
    by destruct (Hno k v Hkv).
  - exact Hempty.
  - intros Hb (k & v & Hkv & Hk) Hv.
    assert (http.Get supplied "Content-Type" <> "") as HG.
    { unfold supplied. rewrite Get_addHeaders.
      apply (rangeOrder_In net _ _ _ Hp) in Hkv.
      assert (In v (valuesFor "Content-Type" (rangeOrder net (Headers req))))
        as Hin by (apply valuesFor_In; eauto).
      destruct (valuesFor "Content-Type" (rangeOrder net (Headers req)))
        as [|v' vs] eqn:E; [done|]. simpl.
      assert (In v' (valuesFor "Content-Type" (rangeOrder net (Headers req))))
        as Hin' by (rewrite E; by left).
      apply valuesFor_In in Hin' as (k' & Hin' & Hk').
      apply (rangeOrder_In net _ _ _ Hp) in Hin'. eauto. }
    assert (defaultContentType (Body req) supplied = supplied) as ->; [|done].
    unfold defaultContentType. apply String.eqb_neq in HG. rewrite HG.
    by rewrite andb_false_r.
  - intros Hb. unfold defaultContentType. by rewrite Hb.
Qed.

Lemma content_type_default_witness :
  let req := with_Body "{}" savedProbe in
  rangeOrder refusingNetwork (Headers req) ≡ₚ map_to_list (Headers req)
  /\ Body req <> ""
  /\ exists httpReq,
       buildRequest refusingNetwork req = inr httpReq
       /\ http.Get (http.header httpReq) "Content-Type" = "application/json".
Proof.
  intros req. split; [reflexivity|]. split; [discriminate|].
  eexists. split; [reflexivity|].
  destruct (content_type_default refusingNetwork req _ (reflexivity _) eq_refl)
    as (_ & H & _).
  apply H; [discriminate|].
  intros k v Hkv. vm_compute in Hkv. discriminate Hkv.
Defined.

(** ** Persistence store *)

Lemma loadEntry_decode (fs : FileSystem) (requests : list HTTPRequest)
    (file : DirEntry) :
  loadEntry fs requests file = requests ++ option_list (decodeEntry fs file).
Proof.
  unfold loadEntry, decodeEntry.
  destruct (negb (entry_IsDir file) && strings.HasSuffix (entry_Name file) ".json");
    [|by rewrite app_nil_r].
  destruct (os_ReadFile fs _) as [e|data]; [by rewrite app_nil_r|].
  destruct (json_Unmarshal fs data); [done|by rewrite app_nil_r].
Qed.

Lemma load_loop (fs : FileSystem) (files : list DirEntry)
    (requests : list HTTPRequest) :
  fold_left (loadEntry fs) files requests = requests ++ omap (decodeEntry fs) files.
Proof.
  revert requests. induction files as [|file files IH]; intros requests.
  - by rewrite app_nil_r.
  - cbn [fold_left]. rewrite IH, loadEntry_decode. cbn [omap list_omap].
    rewrite <- app_assoc. f_equal.
    by destruct (decodeEntry fs file).
Qed.

(** C10, as the claim states it, fails: [requests] exists but cannot be
    listed (here it is a regular file, so that there is no requests
    directory); the listing error is surfaced instead of a list. *)
Lemma unlistable_directory_surfaces_error :
  os_IsNotExist (os_Stat requestsIsAFile "requests") = false
  /\ loadSavedRequests requestsIsAFile
     = errMsg "readdirent requests: not a directory".
Proof. split; reflexivity. Qed.

(** C10, amended. Loading all saved requests yields the empty list when
    [requests] does not exist. When it exists and can be listed, the result
    is exactly the requests decoded from the regular files named [*.json],
    in the order of the listing: a file that cannot be read or decoded is
    skipped without an error and without ending the listing, so every
    other well-formed file is in the list. When [requests] exists and
    cannot be listed, the listing error is surfaced. *)
Theorem load_skips_corrupt_files (fs : FileSystem) :
  (os_IsNotExist (os_Stat fs "requests") = true ->
   loadSavedRequests fs = savedRequestsMsg [])
  /\ (os_IsNotExist (os_Stat fs "requests") = false ->
      forall files, os_ReadDir fs "requests" = inr files ->
      loadSavedRequests fs = savedRequestsMsg (omap (decodeEntry fs) files)
      /\ (forall file req, In file files -> decodeEntry fs file = Some req ->
            In req (omap (decodeEntry fs) files))
      /\ (forall req, In req (omap (decodeEntry fs) files) ->
            exists file, In file files /\ decodeEntry fs file = Some req))
  /\ (os_IsNotExist (os_Stat fs "requests") = false ->
      forall e, os_ReadDir fs "requests" = inl e ->
      loadSavedRequests fs = errMsg (oserror_Error e)).
Proof.
  unfold loadSavedRequests. split; [|split].
  - by intros ->.
  - intros -> files ->. split; [by rewrite load_loop|]. split.
    + intros file req Hin Hd. apply list_elem_of_In, list_elem_of_omap.
      exists file. split; [by apply list_elem_of_In|done].
    + intros req Hin. apply list_elem_of_In, list_elem_of_omap in Hin.
      destruct Hin as (file & Hin & Hd). exists file.
      split; [by apply list_elem_of_In|done].
  - by intros -> e ->.
Qed.

Lemma load_skips_corrupt_files_witness :
  os_IsNotExist (os_Stat mixedDirectory "requests") = false
  /\ os_ReadDir mixedDirectory "requests"
     = inr [mkDirEntry "bad.json" false; mkDirEntry "notes.txt" false;
            mkDirEntry "old.json" true; mkDirEntry "probe.json" false]
  /\ loadSavedRequests mixedDirectory = savedRequestsMsg [savedProbe]
  /\ os_IsNotExist (os_Stat noDirectory "requests") = true
  /\ loadSavedRequests noDirectory = savedRequestsMsg [].
Proof.
  split; [reflexivity|]. split; [reflexivity|]. split.
  - destruct (load_skips_corrupt_files mixedDirectory) as (_ & H & _).
    destruct (H eq_refl _ eq_refl) as (-> & _). reflexivity.
  - split; [reflexivity|].
    destruct (load_skips_corrupt_files noDirectory) as (H & _).
    exact (H eq_refl).
Defined.

(** ** The method list stays within [httpMethods]

    [navigate] indexes [httpMethods] with the position of the method list.
    That position is valid in [initialModel], and every [Update] keeps it
    valid as long as the list widget itself keeps its cursor on one of its
    seven items. *)
Lemma methodIndexValid_initial : methodIndexValid initialModel.
Proof. unfold methodIndexValid. simpl. lia. Qed.

Lemma methodIndexValid_preserved (lib : Bubbles) (msg : Msg) (m m' : model) (c : Cmd) :
  (forall msg l, 0 <= blist.Index l < 7 ->
     0 <= blist.Index (list_Update lib msg l).1 < 7) ->
  methodIndexValid m ->
  Update lib msg m = Some (m', c) ->
  methodIndexValid m'.
Proof.
  unfold methodIndexValid.
  unfold Update, handleMsg, handleKey, navigate, updateComponents, is_one_of.
  intros Hlist Hm HU.
  destruct msg; simpl in HU;
    repeat (case_match; simplify_eq/=); simplify_eq/=;
    try assumption; try apply indexOf_httpMethods_range; try congruence.
  all: match goal with
       | H : list_Update _ ?msg ?l = (_, _) |- _ =>
           let H' := fresh in
           pose proof (Hlist msg l) as H'; rewrite H in H'; apply H'; exact Hm
       end.
Qed.
